(** * The /ask relay of main.py: a shallow embedding and its properties

    The program is one FastAPI route, [ask_openai], that resolves a
    credential, builds a fixed chat-completion payload, performs one outbound
    POST through httpx and turns the upstream answer into either a
    [SuccessResponse] or an [HTTPException].

    Python values are modelled as they occur in the program:
    - [str] is a sequence of Unicode code points;
    - the result of [response.json()] and the dict literals of the program
      are JSON values, a dict being an association list in insertion order;
    - raising is a [result] whose second constructor carries the exception;
    - the outbound call is an effect, recorded in a trace of the calls made;
      it goes through the client that [httpx.AsyncClient(timeout=60.0)]
      creates, the timeout being an argument of the client. *)

From Stdlib Require Import ZArith NArith QArith List Bool Ascii String Lia.
From Stdlib Require Import Numbers.DecimalString.
From Stdlib Require Numbers.DecimalZ.
Import ListNotations.

#[local] Set Warnings "-register-all".

Open Scope Z_scope.

(** ** Python strings *)

(** A Python [str]: the list of its code points. *)
Definition str := list N.

(** The [str] denoted by a source literal (all literals of main.py are ASCII). *)
Definition lit (s : string) : str :=
  List.map N_of_ascii (list_ascii_of_string s).

Definition str_eqb (a b : str) : bool :=
  if list_eq_dec N.eq_dec a b then true else false.

(** [str(n)] / [f"{n}"] for a Python [int]. *)
Definition str_of_int (n : Z) : str :=
  lit (NilEmpty.string_of_int (Z.to_int n)).

(** The code points CPython's [str.strip()] removes when called without an
    argument (the ones for which [str.isspace] holds). *)
Definition isspace (c : N) : bool :=
  ((9 <=? c) && (c <=? 13) || (28 <=? c) && (c <=? 32)
   || (c =? 133) || (c =? 160) || (c =? 5760)
   || (8192 <=? c) && (c <=? 8202)
   || (c =? 8232) || (c =? 8233) || (c =? 8239) || (c =? 8287)
   || (c =? 12288))%N.

Fixpoint lstrip (s : str) : str :=
  match s with
  | [] => []
  | c :: s' => if isspace c then lstrip s' else s
  end.

Definition rstrip (s : str) : str := rev (lstrip (rev s)).

(** [s.strip()] *)
Definition strip (s : str) : str := rstrip (lstrip s).

(** A surrogate code point (U+D800..U+DFFF). A Python [str] may hold one
    alone (JSON's ["\ud83d"] decodes to one); UTF-8 cannot encode it. *)
Definition is_surrogate (c : N) : bool := ((55296 <=? c) && (c <=? 57343))%N.

(** [s.encode("utf-8")] succeeds. *)
Definition utf8_encodable (s : str) : bool :=
  forallb (fun c => negb (is_surrogate c) && (c <=? 1114111)%N) s.

(** Python truthiness of an [Optional[str]]: [None] and [""] are falsy. *)
Definition truthy (o : option str) : bool :=
  match o with
  | Some (_ :: _) => true
  | _ => false
  end.

(** [a or b] on [Optional[str]] operands. *)
Definition py_or (a b : option str) : option str :=
  if truthy a then a else b.

(** ** JSON values (what [response.json()] returns, and the dict literals) *)

Inductive json : Type :=
| JNull
| JBool (b : bool)
| JInt (n : Z)
| JFloat (mantissa exponent10 : Z)   (* the decimal literal m * 10^e *)
| JStr (s : str)
| JList (l : list json)
| JDict (d : list (str * json)).

(** Lookup in a dict: the value bound to the key, if any. *)
Fixpoint dict_get (d : list (str * json)) (k : str) : option json :=
  match d with
  | [] => None
  | (k', v) :: d' => if str_eqb k' k then Some v else dict_get d' k
  end.

(** ** Exceptions *)

(** The httpx exception classes that [client.post] can raise. *)
Inductive httpx_class : Type :=
| ConnectTimeout | ReadTimeout | WriteTimeout | PoolTimeout
| ConnectError | ReadError | WriteError | CloseError
| LocalProtocolError | RemoteProtocolError
| ProxyError | UnsupportedProtocol | DecodingError | TooManyRedirects
| InvalidURL | CookieConflict.

(** A subscript: [v['name']] or [v[0]]. *)
Inductive pykey : Type :=
| KStr (s : str)
| KInt (i : Z).

Inductive exception : Type :=
| HTTPException (status_code : Z) (detail : json)
| KeyError (key : pykey)
| IndexError
| TypeError
| AttributeError
| ValueError                       (* json.JSONDecodeError is one *)
| HttpxError (cls : httpx_class)
| OtherException (name : str).     (* any other subclass of Exception *)

(** The classes named in the [except] clauses of main.py. *)
Inductive exc_class : Type :=
| cls_KeyError
| cls_TimeoutException
| cls_RequestError
| cls_Exception.

(** httpx's hierarchy: the four timeouts derive from [TimeoutException],
    which derives from [TransportError] and so from [RequestError];
    [InvalidURL] and [CookieConflict] derive from [Exception] only. *)
Definition is_timeout (c : httpx_class) : bool :=
  match c with
  | ConnectTimeout | ReadTimeout | WriteTimeout | PoolTimeout => true
  | _ => false
  end.

Definition is_request_error (c : httpx_class) : bool :=
  match c with
  | InvalidURL | CookieConflict => false
  | _ => true
  end.

Definition isinstance (e : exception) (c : exc_class) : bool :=
  match c, e with
  | cls_Exception, _ => true
  | cls_KeyError, KeyError _ => true
  | cls_TimeoutException, HttpxError h => is_timeout h
  | cls_RequestError, HttpxError h => is_request_error h
  | _, _ => false
  end.

(** ** Results of calls that may raise *)

Inductive result (A : Type) : Type :=
| Return (a : A)
| Raise (e : exception).

Arguments Return {A} a.
Arguments Raise {A} e.

Definition rbind {A B} (r : result A) (f : A -> result B) : result B :=
  match r with
  | Return a => f a
  | Raise e => Raise e
  end.

(** ** Subscription and method call on JSON-born values *)

(** Python's sequence indexing: negative indices count from the end. *)
Definition seq_index {A} (l : list A) (i : Z) : option A :=
  let n := Z.of_nat (List.length l) in
  if (0 <=? i) && (i <? n) then nth_error l (Z.to_nat i)
  else if (- n <=? i) && (i <? 0) then nth_error l (Z.to_nat (n + i))
  else None.

(** [v[k]] *)
Definition getitem (v : json) (k : pykey) : result json :=
  match v, k with
  | JDict d, KStr s =>
      match dict_get d s with
      | Some x => Return x
      | None => Raise (KeyError k)
      end
  | JDict _, KInt _ => Raise (KeyError k)   (* the keys of a JSON object are strings *)
  | JList l, KInt i =>
      match seq_index l i with
      | Some x => Return x
      | None => Raise IndexError
      end
  | JList _, KStr _ => Raise TypeError
  | JStr s, KInt i =>
      match seq_index s i with
      | Some c => Return (JStr [c])
      | None => Raise IndexError
      end
  | JStr _, KStr _ => Raise TypeError
  | _, _ => Raise TypeError                 (* None, bool, int, float: not subscriptable *)
  end.

(** [v.strip()]: only [str] has the method. *)
Definition call_strip (v : json) : result str :=
  match v with
  | JStr s => Return (strip s)
  | _ => Raise AttributeError
  end.

(** ** The outbound call as an effect *)

(** One outbound POST: the URL, the headers and the JSON body sent. *)
Record outbound_call : Type := mk_call {
  call_url : str;
  call_headers : list (str * str);
  call_json : json
}.

(** The part of an [httpx.Response] the program reads: [status_code] and
    the outcome of [response.json()] ([None] when the body is not JSON, in
    which case the call raises a [ValueError]). *)
Record response : Type := mk_response {
  status_code : Z;
  json_body : option json
}.

(** The upstream as seen from the relay: what [client.post] does on a call,
    either a response or an exception. *)
Definition upstream : Type := outbound_call -> result response.

(** *** httpx over a network that takes time

    A call through httpx is a sequence of operations: waiting for a
    connection of the pool, connecting, writing chunks of the request,
    reading chunks of the response. A client created with [timeout=t] gives
    each operation [t] seconds; the first operation that needs more ends the
    call with the timeout exception of its phase. The timeout bounds each
    operation, not their sum. *)

Inductive phase : Type := PoolPhase | ConnectPhase | WritePhase | ReadPhase.

Definition timeout_class (p : phase) : httpx_class :=
  match p with
  | PoolPhase => PoolTimeout
  | ConnectPhase => ConnectTimeout
  | WritePhase => WriteTimeout
  | ReadPhase => ReadTimeout
  end.

(** One operation and the seconds it needs ([None]: it never completes). *)
Record operation : Type := mk_op {
  op_phase : phase;
  op_seconds : option Q
}.

(** What the network does with a call: the operations in order, and what
    the call yields when none of them times out (a response, or the
    exception of a failure such as a refused connection). *)
Record exchange : Type := mk_exchange {
  ex_ops : list operation;
  ex_result : result response
}.

Definition network : Type := outbound_call -> exchange.

(** The operation does not complete within the timeout. *)
Definition exceeds (timeout : Q) (o : operation) : bool :=
  match op_seconds o with
  | Some d => negb (Qle_bool d timeout)
  | None => true
  end.

Definition first_timeout (timeout : Q) (ops : list operation) : option phase :=
  option_map op_phase (find (exceeds timeout) ops).

(** [httpx.AsyncClient(timeout=t).post] over the network [net]. *)
Definition httpx_AsyncClient (net : network) (timeout : Q) : upstream :=
  fun c =>
    match first_timeout timeout (ex_ops (net c)) with
    | Some p => Raise (HttpxError (timeout_class p))
    | None => ex_result (net c)
    end.

(** The seconds the whole call takes when every operation completes. *)
Fixpoint total_seconds (ops : list operation) : option Q :=
  match ops with
  | [] => Some 0%Q
  | o :: ops' =>
      match op_seconds o, total_seconds ops' with
      | Some d, Some r => Some (d + r)%Q
      | _, _ => None
      end
  end.

(** Computations that may raise and that record the outbound calls made. *)
Definition IO (A : Type) : Type :=
  list outbound_call -> result A * list outbound_call.

Definition ret {A} (a : A) : IO A := fun t => (Return a, t).

Definition raise {A} (e : exception) : IO A := fun t => (Raise e, t).

Definition bind {A B} (m : IO A) (f : A -> IO B) : IO B :=
  fun t =>
    match m t with
    | (Return a, t') => f a t'
    | (Raise e, t') => (Raise e, t')
    end.

(** [try: m  except ...: h e] where [h] dispatches on the exception. *)
Definition try_except {A} (m : IO A) (h : exception -> IO A) : IO A :=
  fun t =>
    match m t with
    | (Return a, t') => (Return a, t')
    | (Raise e, t') => h e t'
    end.

Definition lift {A} (r : result A) : IO A := fun t => (r, t).

(** [await client.post(url, headers=headers, json=payload)] *)
Definition client_post (up : upstream) (url : str)
    (headers : list (str * str)) (payload : json) : IO response :=
  fun t =>
    let c := mk_call url headers payload in
    (up c, t ++ [c]).

Declare Scope io_scope.
Delimit Scope io_scope with io.
Notation "x <- m ;; k" := (bind m (fun x => k))
  (at level 61, m at next level, right associativity) : io_scope.
Notation "m ;;; k" := (bind m (fun _ => k))
  (at level 61, right associativity) : io_scope.

(** [response.is_success] *)
Definition is_success (r : response) : bool :=
  (200 <=? status_code r) && (status_code r <=? 299).

(** [response.json()] *)
Definition response_json (r : response) : result json :=
  match json_body r with
  | Some j => Return j
  | None => Raise ValueError
  end.

(** ** main.py *)

Definition OPENROUTER_API_URL : str :=
  lit "https://openrouter.ai/api/v1/chat/completions".

Record QuestionRequest : Type := mk_QuestionRequest { question : str }.

Record SuccessResponse : Type := mk_SuccessResponse { response_field : str }.

(** [detail={"message": m}] *)
Definition message_detail (m : str) : json :=
  JDict [(lit "message", JStr m)].

Definition create_request_payload (question : str) : json :=
  JDict [ (lit "model", JStr (lit "openai/gpt-3.5-turbo"));
          (lit "messages",
             JList [JDict [ (lit "role", JStr (lit "user"));
                            (lit "content", JStr question) ]]);
          (lit "max_tokens", JInt 1000);
          (lit "temperature", JFloat 7 (-1)) ].

Definition create_headers (api_key : str) : list (str * str) :=
  [ (lit "Authorization", lit "Bearer " ++ api_key);
    (lit "Content-Type", lit "application/json") ].

Definition error_map : list (Z * str) :=
  [ (401, lit "API Key required");
    (402, lit "API Key required");
    (429, lit "Rate limit exceeded") ].

Fixpoint map_get (m : list (Z * str)) (k : Z) : option str :=
  match m with
  | [] => None
  | (k', v) :: m' => if k' =? k then Some v else map_get m' k
  end.

(** Always raises; the [unit] is the [None] it would return. *)
Definition handle_response_error (status_code : Z) : result unit :=
  match map_get error_map status_code with
  | Some msg => Raise (HTTPException status_code (message_detail msg))
  | None =>
      Raise (HTTPException status_code
               (message_detail (lit "OpenAI API error: " ++ str_of_int status_code)))
  end.

Definition extract_response_content (json_data : json) : result str :=
  match
    rbind (getitem json_data (KStr (lit "choices"))) (fun choices =>
    rbind (getitem choices (KInt 0)) (fun first =>
    rbind (getitem first (KStr (lit "message"))) (fun message =>
    rbind (getitem message (KStr (lit "content"))) call_strip)))
  with
  | Return s => Return s
  | Raise e =>
      if isinstance e cls_KeyError
      then Raise (HTTPException 500 (message_detail (lit "Unexpected response format")))
      else Raise e
  end.

Section Relay.

(** [os.getenv("OPENROUTER_API_KEY")], read once when the module loads. *)
Variable DEFAULT_API_KEY : option str.

(** Python's [str(e)] on an exception object; each exception class defines
    it, in library code outside main.py. *)
Variable exc_str : exception -> str.

(** [httpx.AsyncClient(timeout=t)]: the [post] of the client created with
    the timeout [t] (in seconds), over the upstream the process talks to. *)
Variable AsyncClient : Q -> upstream.

Definition validate_api_key (x_api_key : option str) : result str :=
  match py_or x_api_key DEFAULT_API_KEY with
  | Some (c :: k) => Return (c :: k)
  | _ => Raise (HTTPException 401 (message_detail (lit "API Key required")))
  end.

(** The three [except] clauses of [call_openrouter_api], tried in order. *)
Definition call_handlers (e : exception) : IO str :=
  if isinstance e cls_TimeoutException then
    raise (HTTPException 504 (message_detail (lit "Request timeout")))
  else if isinstance e cls_RequestError then
    raise (HTTPException 503 (message_detail (lit "Connection error")))
  else if isinstance e cls_Exception then
    raise (HTTPException 500
             (message_detail (lit "Internal server error: " ++ exc_str e)))
  else raise e.

Definition call_openrouter_api (api_key : str) (question : str) : IO str :=
  let headers := create_headers api_key in
  let payload := create_request_payload question in
  try_except
    (response <- client_post (AsyncClient 60%Q) OPENROUTER_API_URL headers payload ;;
     (if negb (is_success response)
      then lift (handle_response_error (status_code response))
      else ret tt) ;;;
     json_data <- lift (response_json response) ;;
     lift (extract_response_content json_data))%io
    call_handlers.

Definition ask_openai (request : QuestionRequest) (x_api_key : option str)
  : IO SuccessResponse :=
  (api_key <- lift (validate_api_key x_api_key) ;;
   openai_response <- call_openrouter_api api_key (question request) ;;
   ret (mk_SuccessResponse openai_response))%io.

End Relay.

(** ** The framework around the route *)

(** pydantic's validation of the request body against [QuestionRequest]:
    the body must be an object whose ["question"] is a string; the field
    declaration [question: str] carries no further constraint. *)
Definition QuestionRequest_validate (body : json) : option QuestionRequest :=
  match body with
  | JDict d =>
      match dict_get d (lit "question") with
      | Some (JStr q) => Some (mk_QuestionRequest q)
      | _ => None
      end
  | _ => None
  end.

Inductive http_body : Type :=
| JSONBody (j : json)
| TextBody (s : str)
| EmptyBody.

Record http_response : Type := mk_http_response {
  status : Z;
  body : http_body
}.

(** The response with a [SuccessResponse] model: 200, [{"response": a}]. *)
Definition success_response (a : str) : http_response :=
  mk_http_response 200 (JSONBody (JDict [(lit "response", JStr a)])).

(** An error response whose detail is [{"message": m}]. *)
Definition error_response (s : Z) (m : str) : http_response :=
  mk_http_response s (JSONBody (JDict [(lit "detail", message_detail m)])).

(** FastAPI sends no body with these statuses. *)
Definition is_body_allowed_for_status_code (s : Z) : bool :=
  negb ((s <? 200) || (s =? 204) || (s =? 205) || (s =? 304)).

(** The server's answer to a failure it has no handler for: 500 with the
    plain text "Internal Server Error". *)
Definition plain_500 : http_response :=
  mk_http_response 500 (TextBody (lit "Internal Server Error")).

(** What FastAPI sends for the outcome of the route function: the
    [response_model] serialisation of a returned value, the default
    [HTTPException] handler's [{"detail": detail}], and the server's plain
    500 for any exception that is not an [HTTPException]. A returned answer
    that UTF-8 cannot encode (it holds a lone surrogate) cannot be sent as
    a JSON body: the serialisation raises and the caller gets the plain 500.
    The details main.py raises are ASCII texts and [str] of library
    exceptions; their rendering is taken to succeed. *)
Definition fastapi_response (r : result SuccessResponse) : http_response :=
  match r with
  | Return m =>
      if utf8_encodable (response_field m)
      then success_response (response_field m)
      else plain_500
  | Raise (HTTPException sc detail) =>
      if is_body_allowed_for_status_code sc
      then mk_http_response sc (JSONBody (JDict [(lit "detail", detail)]))
      else mk_http_response sc EmptyBody
  | Raise _ => plain_500
  end.

(** One request through [POST /ask]: the response sent to the caller and
    the outbound calls made while serving it. *)
Definition post_ask (DEFAULT_API_KEY : option str) (exc_str : exception -> str)
    (AsyncClient : Q -> upstream) (request : QuestionRequest)
    (x_api_key : option str)
  : http_response * list outbound_call :=
  let (r, t) :=
    ask_openai DEFAULT_API_KEY exc_str AsyncClient request x_api_key [] in
  (fastapi_response r, t).

(** The same for a process that has already made the outbound calls [t]
    while serving earlier requests. *)
Definition post_ask_after (t : list outbound_call)
    (DEFAULT_API_KEY : option str) (exc_str : exception -> str)
    (AsyncClient : Q -> upstream) (request : QuestionRequest)
    (x_api_key : option str)
  : http_response * list outbound_call :=
  let (r, t') :=
    ask_openai DEFAULT_API_KEY exc_str AsyncClient request x_api_key t in
  (fastapi_response r, t').

(** ** Vocabulary of the statements *)

(** The one call [call_openrouter_api] makes for a credential and a question. *)
Definition the_call (api_key question : str) : outbound_call :=
  mk_call OPENROUTER_API_URL (create_headers api_key)
          (create_request_payload question).

(** The [try] body of [call_openrouter_api] after [client.post] came back. *)
Definition after_post (r : result response) : result str :=
  rbind r (fun response =>
  rbind (if negb (is_success response)
         then handle_response_error (status_code response)
         else Return tt) (fun _ =>
  rbind (response_json response) extract_response_content)).

(** The exception that leaves [call_openrouter_api] when [e] left its body. *)
Definition rewrap (exc_str : exception -> str) (e : exception) : exception :=
  if isinstance e cls_TimeoutException then
    HTTPException 504 (message_detail (lit "Request timeout"))
  else if isinstance e cls_RequestError then
    HTTPException 503 (message_detail (lit "Connection error"))
  else
    HTTPException 500 (message_detail (lit "Internal server error: " ++ exc_str e)).

(** The message column of the Response Translator's table. *)
Definition table_message (s : Z) : str :=
  if (s =? 401) || (s =? 402) then lit "API Key required"
  else if s =? 429 then lit "Rate limit exceeded"
  else lit "OpenAI API error: " ++ str_of_int s.

(** A body has the expected shape with [content] as its answer text:
    [{"choices": [{"message": {"content": content}, ...}, ...], ...}]. *)
Definition well_formed_body (j : json) (content : str) : Prop :=
  exists d rest cd md,
    j = JDict d /\
    dict_get d (lit "choices") = Some (JList (JDict cd :: rest)) /\
    dict_get cd (lit "message") = Some (JDict md) /\
    dict_get md (lit "content") = Some (JStr content).

Definition starts_with_space (s : str) : bool :=
  match s with
  | c :: _ => isspace c
  | [] => false
  end.

Definition ends_with_space (s : str) : bool := starts_with_space (rev s).

(** [r] is [s] with its leading and trailing whitespace removed. *)
Definition trimmed_of (s r : str) : Prop :=
  exists pre post,
    s = pre ++ r ++ post /\
    forallb isspace pre = true /\ forallb isspace post = true /\
    starts_with_space r = false /\ ends_with_space r = false.

(** The text of the user message in an outbound payload:
    [payload["messages"][0]["content"]]. *)
Definition user_content (payload : json) : result json :=
  rbind (getitem payload (KStr (lit "messages"))) (fun messages =>
  rbind (getitem messages (KInt 0)) (fun m =>
  getitem m (KStr (lit "content")))).

(** The response of [POST /ask] is the success body with some answer. *)
Definition is_success_body (r : http_response) : Prop :=
  exists a, r = success_response a.

(** The response of [POST /ask] is a structured error. *)
Definition is_structured_error (r : http_response) : Prop :=
  exists s m, r = error_response s m.

(** Upstream gave the answer [a] to this request: a credential was
    resolved, the call came back with a 2xx status and a body of the
    expected shape, and [a] is its content, stripped. *)
Definition upstream_answer (D : option str) (client : Q -> upstream)
    (request : QuestionRequest) (x : option str) (a : str) : Prop :=
  exists key resp j content,
    validate_api_key D x = Return key /\
    client 60%Q (the_call key (question request)) = Return resp /\
    is_success resp = true /\
    json_body resp = Some j /\
    well_formed_body j content /\
    a = strip content.

(** The exceptions a subscription raises. *)
Definition builtin_lookup_error (e : exception) : Prop :=
  (exists k, e = KeyError k) \/ e = IndexError \/ e = TypeError.

(** The exceptions that leave [extract_response_content]. *)
Definition extraction_error (e : exception) : Prop :=
  e = HTTPException 500 (message_detail (lit "Unexpected response format")) \/
  e = IndexError \/ e = TypeError \/ e = AttributeError.

(** Client stubs: one whose [post] answers every call with the same
    response and one whose [post] fails every call with the same exception,
    whatever the timeout. *)
Definition stub_response (r : response) : Q -> upstream :=
  fun _ _ => Return r.

Definition stub_raise (e : exception) : Q -> upstream := fun _ _ => Raise e.

(** One rendering of [str(e)], used to run the model on concrete inputs:
    Starlette's [status: detail] for an [HTTPException] raised by main.py,
    a class name for the others. *)
Definition example_exc_str (e : exception) : str :=
  match e with
  | HTTPException sc (JDict [(k, JStr m)]) =>
      str_of_int sc ++ lit ": {'" ++ k ++ lit "': '" ++ m ++ lit "'}"
  | HTTPException sc _ => str_of_int sc
  | KeyError _ => lit "KeyError"
  | IndexError => lit "list index out of range"
  | TypeError => lit "TypeError"
  | AttributeError => lit "AttributeError"
  | ValueError => lit "ValueError"
  | HttpxError _ => lit "httpx"
  | OtherException name => name
  end.

(** * Properties *)

(** ** Running the route *)

Lemma call_openrouter_api_run exc_str client key q t :
  call_openrouter_api exc_str client key q t =
  (match after_post (client 60%Q (the_call key q)) with
   | Return s => Return s
   | Raise e => Raise (rewrap exc_str e)
   end, t ++ [the_call key q]).
Proof.
  unfold call_openrouter_api, try_except, bind, client_post, after_post, rewrap,
    call_handlers, the_call, lift, ret, raise.
  destruct (client _ _) as [resp | e]; cbn [rbind].
  - destruct (negb (is_success resp)); cbn [rbind].
    + destruct (handle_response_error (status_code resp)) as [[] | e]; cbn [rbind].
      * destruct (response_json resp) as [j | e]; cbn [rbind].
        -- destruct (extract_response_content j); [reflexivity |].
           destruct (isinstance e cls_TimeoutException); [reflexivity |].
           destruct (isinstance e cls_RequestError); reflexivity.
        -- destruct (isinstance e cls_TimeoutException); [reflexivity |].
           destruct (isinstance e cls_RequestError); reflexivity.
      * destruct (isinstance e cls_TimeoutException); [reflexivity |].
        destruct (isinstance e cls_RequestError); reflexivity.
    + destruct (response_json resp) as [j | e]; cbn [rbind].
      * destruct (extract_response_content j); [reflexivity |].
        destruct (isinstance e cls_TimeoutException); [reflexivity |].
        destruct (isinstance e cls_RequestError); reflexivity.
      * destruct (isinstance e cls_TimeoutException); [reflexivity |].
        destruct (isinstance e cls_RequestError); reflexivity.
  - destruct (isinstance e cls_TimeoutException); [reflexivity |].
    destruct (isinstance e cls_RequestError); reflexivity.
Qed.

Lemma post_ask_no_key D exc_str client request x e :
  validate_api_key D x = Raise e ->
  post_ask D exc_str client request x = (fastapi_response (Raise e), []).
Proof.
  intros H. unfold post_ask, ask_openai, bind, lift. rewrite H. reflexivity.
Qed.

Lemma post_ask_key D exc_str client request x key :
  validate_api_key D x = Return key ->
  post_ask D exc_str client request x =
  (fastapi_response
     (match after_post (client 60%Q (the_call key (question request))) with
      | Return s => Return (mk_SuccessResponse s)
      | Raise e => Raise (rewrap exc_str e)
      end),
   [the_call key (question request)]).
Proof.
  intros H. unfold post_ask, ask_openai, bind, lift, ret. rewrite H.
  rewrite call_openrouter_api_run. cbn [app].
  destruct (after_post _); reflexivity.
Qed.

Lemma post_ask_after_no_key t D exc_str client request x e :
  validate_api_key D x = Raise e ->
  post_ask_after t D exc_str client request x = (fastapi_response (Raise e), t).
Proof.
  intros H. unfold post_ask_after, ask_openai, bind, lift. rewrite H.
  reflexivity.
Qed.

Lemma post_ask_after_key t D exc_str client request x key :
  validate_api_key D x = Return key ->
  post_ask_after t D exc_str client request x =
  (fastapi_response
     (match after_post (client 60%Q (the_call key (question request))) with
      | Return s => Return (mk_SuccessResponse s)
      | Raise e => Raise (rewrap exc_str e)
      end),
   t ++ [the_call key (question request)]).
Proof.
  intros H. unfold post_ask_after, ask_openai, bind, lift, ret. rewrite H.
  rewrite call_openrouter_api_run.
  destruct (after_post _); reflexivity.
Qed.

Lemma validate_api_key_cases D x :
  (exists key, validate_api_key D x = Return key /\ key <> []) \/
  validate_api_key D x =
    Raise (HTTPException 401 (message_detail (lit "API Key required"))).
Proof.
  unfold validate_api_key.
  destruct (py_or x D) as [[| c k] |]; [right | left | right]; try reflexivity.
  exists (c :: k). split; [reflexivity | discriminate].
Qed.

(** ** The status table *)

Lemma handle_response_error_table s :
  handle_response_error s =
  Raise (HTTPException s (message_detail (table_message s))).
Proof.
  unfold handle_response_error, table_message, error_map, map_get.
  rewrite !(Z.eqb_sym _ s).
  destruct (s =? 401) eqn:E1; [reflexivity |].
  destruct (s =? 402) eqn:E2; [reflexivity |].
  destruct (s =? 429) eqn:E3; reflexivity.
Qed.

(** ** What extraction can raise *)

Lemma getitem_raises v k e :
  getitem v k = Raise e -> builtin_lookup_error e.
Proof.
  unfold getitem, builtin_lookup_error.
  destruct v, k; intros H;
    repeat match type of H with
           | context [match ?x with _ => _ end] => destruct x
           end;
    inversion H; subst; eauto.
Qed.

Lemma call_strip_raises v e : call_strip v = Raise e -> e = AttributeError.
Proof. destruct v; cbn; intros H; inversion H; reflexivity. Qed.

Lemma extract_response_content_raises j e :
  extract_response_content j = Raise e -> extraction_error e.
Proof.
  unfold extract_response_content, extraction_error.
  set (r := rbind _ _).
  assert (Hr : forall e', r = Raise e' ->
                 builtin_lookup_error e' \/ e' = AttributeError).
  { subst r. intros e'.
    destruct (getitem j _) as [v1 |] eqn:G1; cbn [rbind];
      [| intros H; inversion H; subst; left; eapply getitem_raises; eassumption].
    destruct (getitem v1 _) as [v2 |] eqn:G2; cbn [rbind];
      [| intros H; inversion H; subst; left; eapply getitem_raises; eassumption].
    destruct (getitem v2 _) as [v3 |] eqn:G3; cbn [rbind];
      [| intros H; inversion H; subst; left; eapply getitem_raises; eassumption].
    destruct (getitem v3 _) as [v4 |] eqn:G4; cbn [rbind];
      [| intros H; inversion H; subst; left; eapply getitem_raises; eassumption].
    intros H. right. eapply call_strip_raises; eassumption. }
  destruct r as [s | e']; [discriminate |].
  destruct (Hr e' eq_refl) as [[[k ->] | [-> | ->]] | ->]; cbn;
    intros H; inversion H; subst; auto.
Qed.

Lemma rewrap_extraction_error exc_str e :
  extraction_error e ->
  rewrap exc_str e =
  HTTPException 500 (message_detail (lit "Internal server error: " ++ exc_str e)).
Proof.
  intros [-> | [-> | [-> | ->]]]; reflexivity.
Qed.

(** ** [str.strip] *)

Lemma lstrip_split s :
  exists pre, s = pre ++ lstrip s /\ forallb isspace pre = true.
Proof.
  induction s as [| c s IH]; cbn.
  - exists []. split; reflexivity.
  - destruct (isspace c) eqn:E.
    + destruct IH as (pre & Hs & Hp). exists (c :: pre). cbn.
      rewrite E, Hp. split; [f_equal; exact Hs | reflexivity].
    + exists []. split; reflexivity.
Qed.

Lemma lstrip_no_lead s : starts_with_space (lstrip s) = false.
Proof.
  induction s as [| c s IH]; cbn; [reflexivity |].
  destruct (isspace c) eqn:E; [exact IH | cbn; exact E].
Qed.

Lemma forallb_rev {A} (f : A -> bool) l :
  forallb f l = true -> forallb f (rev l) = true.
Proof.
  rewrite !forallb_forall. intros H x Hx. apply H, in_rev, Hx.
Qed.

Lemma rstrip_split s :
  exists post, s = rstrip s ++ post /\ forallb isspace post = true.
Proof.
  unfold rstrip. destruct (lstrip_split (rev s)) as (pre & Hs & Hp).
  exists (rev pre). split; [| apply forallb_rev, Hp].
  rewrite <- rev_app_distr, <- Hs, rev_involutive. reflexivity.
Qed.

Lemma rstrip_no_trail s : ends_with_space (rstrip s) = false.
Proof.
  unfold ends_with_space, rstrip. rewrite rev_involutive. apply lstrip_no_lead.
Qed.

Lemma rstrip_keeps_head s :
  starts_with_space s = false -> starts_with_space (rstrip s) = false.
Proof.
  intros H. destruct (rstrip_split s) as (post & Hs & _).
  destruct (rstrip s) as [| c r]; [reflexivity |].
  rewrite Hs in H. exact H.
Qed.

Lemma strip_trimmed s : trimmed_of s (strip s).
Proof.
  unfold trimmed_of, strip.
  destruct (lstrip_split s) as (pre & Hs & Hp).
  destruct (rstrip_split (lstrip s)) as (post & Hr & Hq).
  exists pre, post. repeat split; try assumption.
  - rewrite <- Hr. exact Hs.
  - apply rstrip_keeps_head, lstrip_no_lead.
  - apply rstrip_no_trail.
Qed.

Lemma extract_well_formed j content :
  well_formed_body j content ->
  extract_response_content j = Return (strip content).
Proof.
  intros (d & rest & cd & md & -> & H1 & H2 & H3).
  unfold extract_response_content. cbn [getitem]. rewrite H1. cbn [rbind].
  change (getitem (JList (JDict cd :: rest)) (KInt 0)) with (Return (JDict cd)).
  cbn [rbind getitem]. rewrite H2. cbn [rbind getitem]. rewrite H3.
  reflexivity.
Qed.

(** ** When the steps of extraction return *)

Lemma rbind_returns {A B} (r : result A) (f : A -> result B) b :
  rbind r f = Return b -> exists a, r = Return a /\ f a = Return b.
Proof.
  destruct r as [a | e]; cbn; [| discriminate]. intros H. exists a. auto.
Qed.

Lemma seq_index_0 {A} (l : list A) : seq_index l 0 = hd_error l.
Proof. destruct l; reflexivity. Qed.

Lemma getitem_name_returns v k x :
  getitem v (KStr k) = Return x ->
  exists d, v = JDict d /\ dict_get d k = Some x.
Proof.
  destruct v; cbn; try discriminate.
  destruct (dict_get d k) eqn:E; [| discriminate].
  intros H. inversion H; subst. exists d. auto.
Qed.

Lemma getitem_0_returns v x :
  getitem v (KInt 0) = Return x ->
  (exists rest, v = JList (x :: rest)) \/
  (exists c rest, v = JStr (c :: rest) /\ x = JStr [c]).
Proof.
  destruct v; cbn [getitem]; try discriminate; rewrite seq_index_0.
  - destruct s as [| c rest]; cbn; [discriminate |].
    intros H. inversion H. right. exists c, rest. auto.
  - destruct l as [| y rest]; cbn; [discriminate |].
    intros H. inversion H. left. exists rest. reflexivity.
Qed.

Lemma call_strip_returns v s :
  call_strip v = Return s -> exists c, v = JStr c /\ s = strip c.
Proof.
  destruct v; cbn; try discriminate.
  intros H. inversion H. eexists. split; reflexivity.
Qed.

Lemma extract_returns_well_formed j s :
  extract_response_content j = Return s ->
  exists content, well_formed_body j content /\ s = strip content.
Proof.
  unfold extract_response_content.
  destruct (rbind _ _) as [s' | e] eqn:E;
    [| destruct (isinstance e cls_KeyError); discriminate].
  intros H. inversion H; subst s'. clear H.
  apply rbind_returns in E. destruct E as (choices & G1 & E).
  apply rbind_returns in E. destruct E as (first & G2 & E).
  apply rbind_returns in E. destruct E as (message & G3 & E).
  apply rbind_returns in E. destruct E as (content & G4 & E).
  apply getitem_name_returns in G1. destruct G1 as (d & -> & H1).
  apply getitem_name_returns in G3. destruct G3 as (cd & -> & H3).
  apply getitem_name_returns in G4. destruct G4 as (md & -> & H4).
  apply call_strip_returns in E. destruct E as (c & -> & ->).
  apply getitem_0_returns in G2.
  destruct G2 as [(rest & ->) | (c0 & rest & _ & Hbad)]; [| discriminate Hbad].
  exists c. split; [| reflexivity].
  exists d, rest, cd, md. auto.
Qed.

Lemma after_post_returns r s :
  after_post r = Return s ->
  exists resp j,
    r = Return resp /\ is_success resp = true /\ json_body resp = Some j /\
    extract_response_content j = Return s.
Proof.
  unfold after_post. intros H.
  apply rbind_returns in H. destruct H as (resp & -> & H).
  apply rbind_returns in H. destruct H as (u & Hs & H).
  apply rbind_returns in H. destruct H as (j & Hj & H).
  exists resp, j. repeat split; try assumption.
  - destruct (is_success resp); [reflexivity |]. cbn in Hs.
    rewrite handle_response_error_table in Hs. discriminate Hs.
  - unfold response_json in Hj. destruct (json_body resp); [| discriminate].
    inversion Hj. reflexivity.
Qed.

(** ** Timeouts *)

Lemma existsb_find_some {A} (f : A -> bool) l :
  existsb f l = true -> exists x, find f l = Some x.
Proof.
  induction l as [| y l IH]; cbn; [discriminate |].
  destruct (f y); [eexists; reflexivity | exact IH].
Qed.

Lemma existsb_find_none {A} (f : A -> bool) l :
  existsb f l = false -> find f l = None.
Proof.
  induction l as [| y l IH]; cbn; [reflexivity |].
  destruct (f y); [discriminate | exact IH].
Qed.

(** ** Sending a returned answer *)

Lemma fastapi_response_success m a :
  fastapi_response (Return m) = success_response a ->
  a = response_field m /\ utf8_encodable a = true.
Proof.
  cbn [fastapi_response].
  destruct (utf8_encodable (response_field m)) eqn:E; [| discriminate].
  intros H. inversion H; subst. auto.
Qed.

Lemma fastapi_response_return_status m :
  status (fastapi_response (Return m)) = 200 \/
  status (fastapi_response (Return m)) = 500.
Proof.
  cbn [fastapi_response]. destruct (utf8_encodable _); cbn; auto.
Qed.

(** ** The route on concrete upstreams *)

Example connection_refused_503 :
  fst (post_ask None example_exc_str (stub_raise (HttpxError ConnectError))
         (mk_QuestionRequest (lit "hi")) (Some (lit "sk-test"))) =
  error_response 503 (lit "Connection error").
Proof. reflexivity. Qed.

Example upstream_500_rendered :
  fst (post_ask None example_exc_str (stub_response (mk_response 500 None))
         (mk_QuestionRequest (lit "hi")) (Some (lit "sk-test"))) =
  error_response 500
    (lit "Internal server error: 500: {'message': 'OpenAI API error: 500'}").
Proof. reflexivity. Qed.

Example empty_header_falls_back :
  snd (post_ask (Some (lit "sk-default")) example_exc_str
         (stub_response (mk_response 500 None))
         (mk_QuestionRequest (lit "hi")) (Some [])) =
  [the_call (lit "sk-default") (lit "hi")].
Proof. reflexivity. Qed.

Example strip_unicode_space :
  strip ([160; 9] ++ lit "a b" ++ [8232; 32])%N = lit "a b".
Proof. reflexivity. Qed.

(** ** The claims *)

(** C1, at the failing input. Upstream answers 429 to a request that
    carries a credential: [handle_response_error] raises the table's
    [HTTPException 429 "Rate limit exceeded"], but the raise happens inside
    the [try] of [call_openrouter_api], whose [except Exception] clause
    catches it; the caller receives status 500, not 429, and a message that
    wraps the rendering of the caught exception. *)
Theorem status_table_error_is_rewrapped D exc_str :
  let r := post_ask D exc_str (stub_response (mk_response 429 None))
             (mk_QuestionRequest (lit "hi")) (Some (lit "sk-test")) in
  handle_response_error 429 =
    Raise (HTTPException 429 (message_detail (lit "Rate limit exceeded"))) /\
  fst r =
    error_response 500
      (lit "Internal server error: " ++
       exc_str (HTTPException 429 (message_detail (lit "Rate limit exceeded")))) /\
  fst r <> error_response 429 (lit "Rate limit exceeded").
Proof.
  cbv zeta. repeat split. intros H. discriminate H.
Qed.

(** C2, at the failing input. Upstream answers 200 with the body [{}]:
    [extract_response_content] raises [HTTPException 500 "Unexpected
    response format"], which the [except Exception] clause of
    [call_openrouter_api] catches and wraps; the caller receives status 500
    with a message that starts with "Internal server error: ", not the
    message "Unexpected response format". With an empty [choices] list the
    subscript raises an [IndexError], which [except KeyError] does not
    catch, so that the message "Unexpected response format" is not even
    built. *)
Theorem unexpected_format_is_rewrapped D exc_str :
  let ask body :=
    post_ask D exc_str (stub_response (mk_response 200 (Some body)))
      (mk_QuestionRequest (lit "hi")) (Some (lit "sk-test")) in
  extract_response_content (JDict []) =
    Raise (HTTPException 500 (message_detail (lit "Unexpected response format"))) /\
  fst (ask (JDict [])) =
    error_response 500
      (lit "Internal server error: " ++
       exc_str (HTTPException 500
                  (message_detail (lit "Unexpected response format")))) /\
  fst (ask (JDict [])) <> error_response 500 (lit "Unexpected response format") /\
  extract_response_content (JDict [(lit "choices", JList [])]) = Raise IndexError /\
  fst (ask (JDict [(lit "choices", JList [])])) =
    error_response 500 (lit "Internal server error: " ++ exc_str IndexError).
Proof.
  cbv zeta. repeat split. intros H. discriminate H.
Qed.

(** C3. When upstream answers with a non-2xx status, or with a 2xx status
    and a body that is not JSON or on which extraction raises, the exception
    raised inside the [try] of [call_openrouter_api] is caught by its
    [except Exception]
    clause: the caller receives status 500 and a message that begins with
    "Internal server error: " and continues with the rendering of the caught
    exception. An empty [choices] list is one such body: its subscript
    raises an [IndexError], not a [KeyError]. *)
Theorem body_errors_become_internal_error
    D exc_str client request x key resp :
  validate_api_key D x = Return key ->
  client 60%Q (the_call key (question request)) = Return resp ->
  (is_success resp = false \/
   (is_success resp = true /\ json_body resp = None) \/
   exists j e, is_success resp = true /\ json_body resp = Some j /\
               extract_response_content j = Raise e) ->
  (exists e,
     after_post (Return resp) = Raise e /\
     post_ask D exc_str client request x =
       (error_response 500 (lit "Internal server error: " ++ exc_str e),
        [the_call key (question request)])) /\
  (forall d,
     extract_response_content (JDict ((lit "choices", JList []) :: d)) =
       Raise IndexError).
Proof.
  intros Hk Hup Hcase. split; [| intros d; reflexivity].
  rewrite (post_ask_key _ _ _ _ _ _ Hk), Hup.
  unfold after_post. cbn [rbind].
  destruct Hcase as [Hns | [[Hs Hj] | (j & e & Hs & Hj & He)]].
  - rewrite Hns. cbn [negb]. rewrite handle_response_error_table. cbn [rbind].
    eexists. split; reflexivity.
  - rewrite Hs. cbn [negb rbind]. unfold response_json. rewrite Hj.
    exists ValueError. split; reflexivity.
  - rewrite Hs. cbn [negb rbind]. unfold response_json. rewrite Hj.
    cbn [rbind]. rewrite He. exists e. split; [reflexivity |].
    rewrite (rewrap_extraction_error _ _ (extract_response_content_raises _ _ He)).
    reflexivity.
Qed.

Lemma body_errors_become_internal_error_witness :
  let client := stub_response
              (mk_response 200 (Some (JDict [(lit "choices", JList [])]))) in
  validate_api_key None (Some (lit "sk-test")) = Return (lit "sk-test") /\
  fst (post_ask None example_exc_str client (mk_QuestionRequest (lit "hi"))
         (Some (lit "sk-test"))) =
    error_response 500 (lit "Internal server error: list index out of range").
Proof.
  cbv zeta. split; [reflexivity |].
  destruct (proj1 (body_errors_become_internal_error None example_exc_str
              (stub_response
                 (mk_response 200 (Some (JDict [(lit "choices", JList [])]))))
              (mk_QuestionRequest (lit "hi")) (Some (lit "sk-test"))
              (lit "sk-test")
              (mk_response 200 (Some (JDict [(lit "choices", JList [])])))
              eq_refl eq_refl
              (or_intror (or_intror
                 (ex_intro _ (JDict [(lit "choices", JList [])])
                    (ex_intro _ IndexError
                       (conj eq_refl (conj eq_refl eq_refl))))))))
    as (e & He & Hr).
  rewrite Hr. inversion He. reflexivity.
Defined.

(** C4, as the code has it. For a request with a usable credential (and any
    question, so in particular a non-empty one), when upstream answers with
    a 2xx status and a body whose [choices[0].message.content] is the string
    [content], and the stripped content can be encoded as UTF-8 (it holds no
    lone surrogate), the caller receives status 200 and the body
    [{"response": r}] where [r] is [content] with its leading and trailing
    whitespace removed. *)
Theorem well_formed_answer_is_relayed
    D exc_str client request x key resp j content :
  validate_api_key D x = Return key ->
  client 60%Q (the_call key (question request)) = Return resp ->
  is_success resp = true ->
  json_body resp = Some j ->
  well_formed_body j content ->
  utf8_encodable (strip content) = true ->
  post_ask D exc_str client request x =
    (success_response (strip content), [the_call key (question request)]) /\
  status (success_response (strip content)) = 200 /\
  trimmed_of content (strip content).
Proof.
  intros Hk Hup Hs Hj Hwf Henc.
  split; [| split; [reflexivity | apply strip_trimmed]].
  rewrite (post_ask_key _ _ _ _ _ _ Hk), Hup.
  unfold after_post. cbn [rbind]. rewrite Hs. cbn [negb rbind].
  unfold response_json. rewrite Hj. cbn [rbind].
  rewrite (extract_well_formed _ _ Hwf).
  cbn [fastapi_response response_field]. rewrite Henc. reflexivity.
Qed.

Lemma well_formed_answer_is_relayed_witness :
  let j := JDict [(lit "choices",
                   JList [JDict [(lit "message",
                                  JDict [(lit "content", JStr (lit "  42 "))])]])] in
  well_formed_body j (lit "  42 ") /\
  utf8_encodable (strip (lit "  42 ")) = true /\
  fst (post_ask None example_exc_str (stub_response (mk_response 200 (Some j)))
         (mk_QuestionRequest (lit "6 * 7?")) (Some (lit "sk-test"))) =
    success_response (lit "42").
Proof.
  cbv zeta.
  assert (Hwf : well_formed_body
                  (JDict [(lit "choices",
                     JList [JDict [(lit "message",
                                    JDict [(lit "content", JStr (lit "  42 "))])]])])
                  (lit "  42 ")).
  { eexists _, _, _, _. repeat split. }
  split; [exact Hwf | split; [reflexivity |]].
  set (j := JDict _) in *.
  rewrite (proj1 (well_formed_answer_is_relayed None example_exc_str
                    (stub_response (mk_response 200 (Some j)))
                    (mk_QuestionRequest (lit "6 * 7?")) (Some (lit "sk-test"))
                    (lit "sk-test") (mk_response 200 (Some j)) j (lit "  42 ")
                    eq_refl eq_refl eq_refl eq_refl Hwf eq_refl)).
  reflexivity.
Defined.

(** C4 as stated fails: upstream answers 200 with a well-formed body whose
    content is a lone surrogate between two spaces (JSON [" \ud83d "]).
    Extraction returns the surrogate, which cannot be sent as a JSON body:
    the caller receives the plain 500, not status 200 with the stripped
    content. *)
Lemma lone_surrogate_answer_is_not_relayed :
  let content := [32; 55357; 32]%N in
  let j := JDict [(lit "choices",
                   JList [JDict [(lit "message",
                                  JDict [(lit "content", JStr content)])]])] in
  let r := fst (post_ask None example_exc_str
                  (stub_response (mk_response 200 (Some j)))
                  (mk_QuestionRequest (lit "hi")) (Some (lit "sk-test"))) in
  well_formed_body j content /\
  extract_response_content j = Return (strip content) /\
  r = plain_500 /\
  r <> success_response (strip content).
Proof.
  cbv zeta. split; [eexists _, _, _, _; repeat split |].
  split; [reflexivity | split; [reflexivity | discriminate]].
Qed.

(** C5. The Key Resolver takes the caller-supplied credential when it is
    present and non-empty, and that credential is the one the outbound call
    is made with; otherwise it takes the process-wide default when that one
    is present and non-empty; when neither is, the caller receives status
    401 with message "API Key required" and no outbound call is made. *)
Theorem key_resolver_order D exc_str client request x :
  if truthy x then
    exists k, x = Some k /\ k <> [] /\
      validate_api_key D x = Return k /\
      snd (post_ask D exc_str client request x) = [the_call k (question request)]
  else if truthy D then
    exists d, D = Some d /\ d <> [] /\
      validate_api_key D x = Return d /\
      snd (post_ask D exc_str client request x) = [the_call d (question request)]
  else
    validate_api_key D x =
      Raise (HTTPException 401 (message_detail (lit "API Key required"))) /\
    post_ask D exc_str client request x =
      (error_response 401 (lit "API Key required"), []).
Proof.
  destruct (truthy x) eqn:Hx.
  - destruct x as [[| c k] |]; try discriminate Hx.
    exists (c :: k).
    split; [reflexivity | split; [discriminate | split; [reflexivity |]]].
    erewrite post_ask_key by reflexivity. reflexivity.
  - assert (Hv : validate_api_key D x =
                 match D with
                 | Some (c :: d) => Return (c :: d)
                 | _ => Raise (HTTPException 401
                                 (message_detail (lit "API Key required")))
                 end)
      by (unfold validate_api_key, py_or; rewrite Hx; reflexivity).
    destruct (truthy D) eqn:HD.
    + destruct D as [[| c d] |]; try discriminate HD.
      exists (c :: d).
      split; [reflexivity | split; [discriminate | split; [exact Hv |]]].
      rewrite (post_ask_key _ exc_str client request _ _ Hv). reflexivity.
    + assert (Hno : validate_api_key D x =
                    Raise (HTTPException 401
                             (message_detail (lit "API Key required"))))
        by (rewrite Hv; destruct D as [[| c d] |];
            try discriminate HD; reflexivity).
      split; [exact Hno |].
      rewrite (post_ask_no_key _ exc_str client request _ _ Hno). reflexivity.
Qed.

(** X15. Whatever client [post] is called on, when it raises an httpx
    timeout exception the caller receives status 504 with message "Request
    timeout", and when it raises any other [RequestError] the caller
    receives status 503 with message "Connection error". *)
Theorem transport_failures_are_classified
    D exc_str client request x key h :
  validate_api_key D x = Return key ->
  client 60%Q (the_call key (question request)) = Raise (HttpxError h) ->
  is_request_error h = true ->
  post_ask D exc_str client request x =
    (if is_timeout h
     then error_response 504 (lit "Request timeout")
     else error_response 503 (lit "Connection error"),
     [the_call key (question request)]).
Proof.
  intros Hk Hup Hreq.
  rewrite (post_ask_key _ _ _ _ _ _ Hk), Hup.
  cbn [after_post rbind]. unfold rewrap. cbn [isinstance]. rewrite Hreq.
  destruct (is_timeout h); reflexivity.
Qed.

Lemma transport_failures_are_classified_witness :
  validate_api_key (Some (lit "sk-default")) None = Return (lit "sk-default") /\
  is_request_error ReadTimeout = true /\
  fst (post_ask (Some (lit "sk-default")) example_exc_str
         (stub_raise (HttpxError ReadTimeout))
         (mk_QuestionRequest (lit "hi")) None) =
    error_response 504 (lit "Request timeout").
Proof.
  split; [reflexivity | split; [reflexivity |]].
  rewrite (transport_failures_are_classified (Some (lit "sk-default"))
             example_exc_str (stub_raise (HttpxError ReadTimeout))
             (mk_QuestionRequest (lit "hi")) None (lit "sk-default") ReadTimeout
             eq_refl eq_refl eq_refl).
  reflexivity.
Defined.

(** C6, as the code has it. The client is created with [timeout=60.0],
    which httpx applies to each operation of the call. When some operation
    of the outbound call does not complete within 60 seconds, the caller
    receives status 504 with message "Request timeout". When every
    operation completes within 60 seconds and the call fails with any other
    transport-level failure (a [RequestError]), the caller receives status
    503 with message "Connection error". *)
Theorem sixty_second_timeout_per_operation
    D exc_str net request x key :
  validate_api_key D x = Return key ->
  let c := the_call key (question request) in
  let r := post_ask D exc_str (httpx_AsyncClient net) request x in
  (existsb (exceeds 60) (ex_ops (net c)) = true ->
   r = (error_response 504 (lit "Request timeout"), [c])) /\
  (forall h,
     existsb (exceeds 60) (ex_ops (net c)) = false ->
     ex_result (net c) = Raise (HttpxError h) ->
     is_request_error h = true ->
     is_timeout h = false ->
     r = (error_response 503 (lit "Connection error"), [c])).
Proof.
  intros Hk. cbv zeta. rewrite (post_ask_key _ _ _ _ _ _ Hk).
  unfold httpx_AsyncClient, first_timeout. split.
  - intros Hex. destruct (existsb_find_some _ _ Hex) as (o & ->).
    cbn [option_map after_post rbind].
    unfold rewrap. cbn [isinstance].
    destruct (op_phase o); reflexivity.
  - intros h Hex Hres Hreq Ht. rewrite (existsb_find_none _ _ Hex).
    cbn [option_map]. rewrite Hres. cbn [after_post rbind].
    unfold rewrap. cbn [isinstance]. rewrite Ht, Hreq. reflexivity.
Qed.

Lemma sixty_second_timeout_per_operation_witness :
  let net : network :=
    fun _ => mk_exchange [mk_op ConnectPhase (Some 2%Q);
                          mk_op WritePhase (Some 1%Q);
                          mk_op ReadPhase (Some 61%Q)]
                         (Return (mk_response 200 None)) in
  existsb (exceeds 60) (ex_ops (net (the_call (lit "sk-test") (lit "hi")))) = true /\
  fst (post_ask None example_exc_str (httpx_AsyncClient net)
         (mk_QuestionRequest (lit "hi")) (Some (lit "sk-test"))) =
    error_response 504 (lit "Request timeout").
Proof.
  cbv zeta. split; [reflexivity |].
  rewrite (proj1 (sixty_second_timeout_per_operation None example_exc_str
                    (fun _ => mk_exchange [mk_op ConnectPhase (Some 2%Q);
                                           mk_op WritePhase (Some 1%Q);
                                           mk_op ReadPhase (Some 61%Q)]
                                          (Return (mk_response 200 None)))
                    (mk_QuestionRequest (lit "hi")) (Some (lit "sk-test"))
                    (lit "sk-test") eq_refl) eq_refl).
  reflexivity.
Defined.

(** C6 as stated fails for a call that takes more than 60 seconds as a
    whole: connecting takes 40 seconds and reading the response 40 more, so
    the call takes 80 seconds, yet no operation exceeds the timeout; the
    caller receives the answer with status 200, not 504. *)
Lemma slow_call_is_not_timed_out :
  let j := JDict [(lit "choices",
                   JList [JDict [(lit "message",
                                  JDict [(lit "content", JStr (lit "ok"))])]])] in
  let ops := [mk_op ConnectPhase (Some 40%Q); mk_op ReadPhase (Some 40%Q)] in
  let net : network :=
    fun _ => mk_exchange ops (Return (mk_response 200 (Some j))) in
  let r := fst (post_ask None example_exc_str (httpx_AsyncClient net)
                  (mk_QuestionRequest (lit "hi")) (Some (lit "sk-test"))) in
  (exists d, total_seconds ops = Some d /\ (60 < d)%Q) /\
  r = success_response (lit "ok") /\
  r <> error_response 504 (lit "Request timeout").
Proof.
  cbv zeta. split; [| split; [reflexivity | discriminate]].
  eexists. split; reflexivity.
Qed.

(** C7. For every question [q] the Payload Builder returns the fixed body:
    model "openai/gpt-3.5-turbo", the single message
    [{"role": "user", "content": q}], [max_tokens] 1000 and [temperature]
    0.7, and nothing else; every outbound call of the route carries that
    body for the request's question, whatever the header, the default
    credential or the upstream. *)
Theorem payload_is_fixed D exc_str client request x q :
  create_request_payload q =
    JDict [ (lit "model", JStr (lit "openai/gpt-3.5-turbo"));
            (lit "messages",
               JList [JDict [ (lit "role", JStr (lit "user"));
                              (lit "content", JStr q) ]]);
            (lit "max_tokens", JInt 1000);
            (lit "temperature", JFloat 7 (-1)) ] /\
  Forall (fun c => call_json c = create_request_payload (question request))
         (snd (post_ask D exc_str client request x)).
Proof.
  split; [reflexivity |].
  destruct (validate_api_key_cases D x) as [(key & Hk & _) | Hno].
  - rewrite (post_ask_key _ _ _ _ _ _ Hk). cbn [snd].
    constructor; [reflexivity | constructor].
  - rewrite (post_ask_no_key _ _ _ _ _ _ Hno). constructor.
Qed.

(** C8, as the code has it. For every request, header, default credential
    and client, the route ends in exactly one way. Either upstream gave an
    answer to the request: then the caller receives the success body
    [{"response": a}] with status 200 when the answer can be encoded as
    UTF-8, and the server's plain 500 (neither a success body nor a
    structured error) when it holds a lone surrogate. Or upstream gave no
    answer: then the caller receives a structured error
    [{"detail": {"message": m}}] with a status among 401, 500, 503 and 504.
    No response is both a success body and a structured error. *)
Theorem exactly_one_outcome D exc_str client request x :
  let r := fst (post_ask D exc_str client request x) in
  ((exists a, upstream_answer D client request x a /\
              r = if utf8_encodable a then success_response a else plain_500) \/
   ((forall a, ~ upstream_answer D client request x a) /\
    exists s m, r = error_response s m /\ In s [401; 500; 503; 504])) /\
  ~ (is_success_body r /\ is_structured_error r) /\
  ~ is_success_body plain_500 /\ ~ is_structured_error plain_500.
Proof.
  cbv zeta. split; [| split; [| split]].
  - destruct (validate_api_key_cases D x) as [(key & Hk & _) | Hno].
    + rewrite (post_ask_key _ _ _ _ _ _ Hk). cbn [fst].
      destruct (after_post _) as [a | e] eqn:E.
      * left. exists a. split; [| reflexivity].
        apply after_post_returns in E.
        destruct E as (resp & j & Hup & Hs & Hj & Hx).
        apply extract_returns_well_formed in Hx.
        destruct Hx as (content & Hwf & ->).
        exists key, resp, j, content. auto 10.
      * right. split.
        -- intros a (key' & resp & j & content & Hk' & Hup & Hs & Hj & Hwf & _).
           rewrite Hk in Hk'. inversion Hk'; subst key'.
           rewrite Hup in E. unfold after_post in E. cbn [rbind] in E.
           rewrite Hs in E. cbn [negb rbind] in E.
           unfold response_json in E. rewrite Hj in E. cbn [rbind] in E.
           rewrite (extract_well_formed _ _ Hwf) in E. discriminate E.
        -- unfold rewrap.
           destruct (isinstance e cls_TimeoutException);
             [| destruct (isinstance e cls_RequestError)];
             eexists _, _; (split; [reflexivity | cbn; tauto]).
    + rewrite (post_ask_no_key _ _ _ _ _ _ Hno). right. split.
      * intros a (key & _ & _ & _ & Hk & _). rewrite Hno in Hk. discriminate Hk.
      * eexists _, _. split; [reflexivity | cbn; tauto].
  - intros [(a & Ha) (s & m & Hs)]. rewrite Ha in Hs. discriminate Hs.
  - intros (a & Ha). discriminate Ha.
  - intros (s & m & Hs). discriminate Hs.
Qed.

(** C8 as stated fails: upstream answers 200 with a well-formed body whose
    content is a lone surrogate (JSON ["\ud83d"]). The route function
    returns, but the answer cannot be sent as a JSON body: the caller
    receives the plain 500, which is neither the success body nor a
    structured error. *)
Lemma surrogate_answer_is_neither_outcome :
  let j := JDict [(lit "choices",
                   JList [JDict [(lit "message",
                                  JDict [(lit "content", JStr [55357]%N)])]])] in
  let r := fst (post_ask None example_exc_str
                  (stub_response (mk_response 200 (Some j)))
                  (mk_QuestionRequest (lit "hi")) (Some (lit "sk-test"))) in
  r = plain_500 /\ ~ is_success_body r /\ ~ is_structured_error r.
Proof.
  cbv zeta. split; [reflexivity | split].
  - intros (a & Ha). discriminate Ha.
  - intros (s & m & Hs). discriminate Hs.
Qed.

(** C9. Two runs of the route with the same question and the same resolved
    credential (whether it came from the header or from the default),
    against clients that behave alike on the call the relay makes, send the
    same response and make the same outbound calls, whatever calls the
    process made before each run. *)
Theorem same_inputs_same_response
    D1 D2 exc_str client1 client2 t1 t2 request x1 x2 :
  validate_api_key D1 x1 = validate_api_key D2 x2 ->
  (forall key, validate_api_key D1 x1 = Return key ->
     client1 60%Q (the_call key (question request)) =
     client2 60%Q (the_call key (question request))) ->
  exists r calls,
    post_ask_after t1 D1 exc_str client1 request x1 = (r, t1 ++ calls) /\
    post_ask_after t2 D2 exc_str client2 request x2 = (r, t2 ++ calls).
Proof.
  intros Hcred Hsame.
  destruct (validate_api_key_cases D1 x1) as [(key & Hk & _) | Hno].
  - assert (Hk2 : validate_api_key D2 x2 = Return key) by congruence.
    exists (fastapi_response
              (match after_post (client1 60%Q (the_call key (question request))) with
               | Return s => Return (mk_SuccessResponse s)
               | Raise e => Raise (rewrap exc_str e)
               end)),
           [the_call key (question request)].
    split.
    + apply (post_ask_after_key _ _ _ _ _ _ _ Hk).
    + rewrite (Hsame _ Hk). apply (post_ask_after_key _ _ _ _ _ _ _ Hk2).
  - assert (Hno2 : validate_api_key D2 x2 =
                   Raise (HTTPException 401
                            (message_detail (lit "API Key required"))))
      by congruence.
    eexists _, []. rewrite !app_nil_r. split.
    + apply (post_ask_after_no_key _ _ _ _ _ _ _ Hno).
    + apply (post_ask_after_no_key _ _ _ _ _ _ _ Hno2).
Qed.

Lemma same_inputs_same_response_witness :
  let r := mk_response 200 (Some (JDict [])) in
  let client2 : Q -> upstream :=
    fun _ c => if str_eqb (call_url c) OPENROUTER_API_URL
               then Return r else Raise (HttpxError ConnectError) in
  let earlier := [the_call (lit "sk-other") (lit "earlier question")] in
  validate_api_key None (Some (lit "sk-test")) =
    validate_api_key (Some (lit "sk-test")) None /\
  exists resp calls,
    post_ask_after [] None example_exc_str (stub_response r)
      (mk_QuestionRequest (lit "hi")) (Some (lit "sk-test")) =
      (resp, [] ++ calls) /\
    post_ask_after earlier (Some (lit "sk-test")) example_exc_str client2
      (mk_QuestionRequest (lit "hi")) None = (resp, earlier ++ calls).
Proof.
  cbv zeta. split; [reflexivity |].
  apply (same_inputs_same_response None (Some (lit "sk-test")) example_exc_str
           (stub_response (mk_response 200 (Some (JDict [])))) _
           [] [the_call (lit "sk-other") (lit "earlier question")]
           (mk_QuestionRequest (lit "hi")) (Some (lit "sk-test")) None eq_refl).
  intros key Hk. reflexivity.
Defined.

(** C10. The request schema puts no constraint on the question beyond its
    being a string: a body whose question is the empty string validates,
    and with a usable credential the one outbound call carries the empty
    string as the content of its user message. *)
Theorem empty_question_is_forwarded D exc_str client x key :
  validate_api_key D x = Return key ->
  QuestionRequest_validate (JDict [(lit "question", JStr [])]) =
    Some (mk_QuestionRequest []) /\
  snd (post_ask D exc_str client (mk_QuestionRequest []) x) = [the_call key []] /\
  user_content (call_json (the_call key [])) = Return (JStr []).
Proof.
  intros Hk. split; [reflexivity | split; [| reflexivity]].
  rewrite (post_ask_key _ _ _ _ _ _ Hk). reflexivity.
Qed.

Lemma empty_question_is_forwarded_witness :
  validate_api_key None (Some (lit "sk-test")) = Return (lit "sk-test") /\
  snd (post_ask None example_exc_str (stub_raise (HttpxError ConnectError))
         (mk_QuestionRequest []) (Some (lit "sk-test"))) =
    [the_call (lit "sk-test") []].
Proof.
  split; [reflexivity |].
  exact (proj1 (proj2 (empty_question_is_forwarded None example_exc_str
                         (stub_raise (HttpxError ConnectError))
                         (Some (lit "sk-test")) (lit "sk-test") eq_refl))).
Defined.

(** * Further properties of main.py *)

Lemma rewrap_is_http_error exc_str e :
  exists s m, rewrap exc_str e = HTTPException s (message_detail m) /\
              In s [500; 503; 504].
Proof.
  unfold rewrap.
  destruct (isinstance e cls_TimeoutException);
    [| destruct (isinstance e cls_RequestError)];
    eexists _, _; (split; [reflexivity | cbn; tauto]).
Qed.

Lemma fastapi_response_rewrap exc_str e :
  exists s m, fastapi_response (Raise (rewrap exc_str e)) = error_response s m /\
              In s [500; 503; 504].
Proof.
  destruct (rewrap_is_http_error exc_str e) as (s & m & -> & Hs).
  exists s, m. split; [| exact Hs].
  cbn in Hs. destruct Hs as [<- | [<- | [<- | []]]]; reflexivity.
Qed.

Lemma timeout_is_request_error h :
  is_timeout h = true -> is_request_error h = true.
Proof. destruct h; cbn; congruence. Qed.

Lemma lstrip_all_space s : forallb isspace s = true -> lstrip s = [].
Proof.
  induction s as [| c s IH]; cbn; [reflexivity |].
  destruct (isspace c); cbn; [exact IH | discriminate].
Qed.

Lemma lit_inj a b : lit a = lit b -> a = b.
Proof.
  unfold lit. intros H.
  rewrite <- (string_of_list_ascii_of_string a),
          <- (string_of_list_ascii_of_string b).
  f_equal.
  revert H. generalize (list_ascii_of_string a) (list_ascii_of_string b).
  intros l. induction l as [| x l IH]; intros [| y l']; cbn;
    try discriminate; [reflexivity |].
  intros H. inversion H as [[Hx Hl]]. f_equal; [| apply IH, Hl].
  rewrite <- (ascii_N_embedding x), <- (ascii_N_embedding y), Hx. reflexivity.
Qed.

Lemma str_of_int_inj a b : str_of_int a = str_of_int b -> a = b.
Proof.
  unfold str_of_int. intros H. apply lit_inj in H.
  apply DecimalZ.to_int_inj.
  assert (E : NilEmpty.int_of_string (NilEmpty.string_of_int (Z.to_int a)) =
              NilEmpty.int_of_string (NilEmpty.string_of_int (Z.to_int b)))
    by (rewrite H; reflexivity).
  rewrite !NilEmpty.isi in E. inversion E. reflexivity.
Qed.

(** ** What the outbound call carries *)

(** X1. The outbound call determines the credential and the question it was
    built from: two calls with the same headers and body come from the same
    credential and the same question. *)
Theorem outbound_call_determines_inputs k1 q1 k2 q2 :
  create_headers k1 = create_headers k2 ->
  create_request_payload q1 = create_request_payload q2 ->
  k1 = k2 /\ q1 = q2.
Proof.
  unfold create_headers, create_request_payload. intros Hh Hp. split.
  - inversion Hh. reflexivity.
  - inversion Hp. reflexivity.
Qed.

Lemma outbound_call_determines_inputs_witness :
  create_headers (lit "sk-a") = create_headers ([115; 107; 45; 97])%N /\
  lit "sk-a" = ([115; 107; 45; 97])%N.
Proof.
  split; [reflexivity |].
  exact (proj1 (outbound_call_determines_inputs (lit "sk-a") (lit "q")
                  ([115; 107; 45; 97])%N (lit "q") eq_refl eq_refl)).
Defined.

(** X10. A request causes at most one outbound call (no retry); a call that
    is made goes to the fixed URL, carries a non-empty credential after
    "Bearer " and the JSON content type, and nothing else in its headers. *)
Theorem at_most_one_call_with_credential D exc_str client request x :
  let t := snd (post_ask D exc_str client request x) in
  (List.length t <= 1)%nat /\
  Forall (fun c =>
            call_url c = OPENROUTER_API_URL /\
            exists k, k <> [] /\
              call_headers c =
                [ (lit "Authorization", lit "Bearer " ++ k);
                  (lit "Content-Type", lit "application/json") ]) t.
Proof.
  cbv zeta.
  destruct (validate_api_key_cases D x) as [(key & Hk & Hne) | Hno].
  - rewrite (post_ask_key _ _ _ _ _ _ Hk). cbn [snd List.length].
    split; [lia |]. constructor; [| constructor].
    split; [reflexivity |]. exists key. split; [exact Hne | reflexivity].
  - rewrite (post_ask_no_key _ _ _ _ _ _ Hno). cbn [snd List.length].
    split; [lia | constructor].
Qed.

(** X14. A present, non-empty header makes the process-wide default
    irrelevant: the response and the outbound calls are the same whatever
    the default credential is. *)
Theorem header_overrides_default D1 D2 exc_str client request x :
  truthy x = true ->
  post_ask D1 exc_str client request x = post_ask D2 exc_str client request x.
Proof.
  intros Hx. destruct x as [[| c k] |]; try discriminate Hx.
  erewrite (post_ask_key D1) by reflexivity.
  erewrite (post_ask_key D2) by reflexivity.
  reflexivity.
Qed.

Lemma header_overrides_default_witness :
  truthy (Some (lit "sk-caller")) = true /\
  post_ask None example_exc_str (stub_response (mk_response 500 None))
    (mk_QuestionRequest (lit "hi")) (Some (lit "sk-caller")) =
  post_ask (Some (lit "sk-default")) example_exc_str
    (stub_response (mk_response 500 None))
    (mk_QuestionRequest (lit "hi")) (Some (lit "sk-caller")).
Proof.
  split; [reflexivity |].
  exact (header_overrides_default None (Some (lit "sk-default")) example_exc_str
           (stub_response (mk_response 500 None))
           (mk_QuestionRequest (lit "hi")) (Some (lit "sk-caller")) eq_refl).
Defined.

(** X11. The caller receives status 401 exactly when no outbound call was
    made: 401 always means that no credential could be resolved, never that
    upstream refused one. *)
Theorem unauthorized_iff_no_call D exc_str client request x :
  status (fst (post_ask D exc_str client request x)) = 401 <->
  snd (post_ask D exc_str client request x) = [].
Proof.
  destruct (validate_api_key_cases D x) as [(key & Hk & _) | Hno].
  - rewrite (post_ask_key _ _ _ _ _ _ Hk). cbn [fst snd].
    split; [| discriminate].
    destruct (after_post _) as [a | e].
    { intros H.
      destruct (fastapi_response_return_status (mk_SuccessResponse a));
        congruence. }
    destruct (fastapi_response_rewrap exc_str e) as (s & m & -> & Hs).
    cbn in Hs |- *. intros ->. lia.
  - rewrite (post_ask_no_key _ _ _ _ _ _ Hno). cbn. tauto.
Qed.

(** ** The status table, at the level of [handle_response_error] *)

(** X2. [handle_response_error] never returns: for every status, 2xx
    included, it raises an [HTTPException] with that same status, whose
    message is "API Key required" for 401 and 402, "Rate limit exceeded" for
    429 and "OpenAI API error: <status>" for every other status. *)
Theorem handle_response_error_raises_table s :
  (forall u, handle_response_error s <> Return u) /\
  (s = 401 \/ s = 402 ->
   handle_response_error s =
     Raise (HTTPException s (message_detail (lit "API Key required")))) /\
  (s = 429 ->
   handle_response_error s =
     Raise (HTTPException s (message_detail (lit "Rate limit exceeded")))) /\
  (s <> 401 -> s <> 402 -> s <> 429 ->
   handle_response_error s =
     Raise (HTTPException s
              (message_detail (lit "OpenAI API error: " ++ str_of_int s)))).
Proof.
  rewrite handle_response_error_table. unfold table_message.
  split; [intros u; discriminate |].
  split; [intros [-> | ->]; reflexivity |].
  split; [intros ->; reflexivity |].
  intros H1 H2 H3.
  apply Z.eqb_neq in H1, H2, H3. rewrite H1, H2, H3. reflexivity.
Qed.

Lemma handle_response_error_raises_table_witness :
  handle_response_error 503 =
    Raise (HTTPException 503 (message_detail (lit "OpenAI API error: 503"))).
Proof.
  refine (proj2 (proj2 (proj2 (handle_response_error_raises_table 503))) _ _ _);
    discriminate.
Defined.

(** X3. Outside the table the message determines the status: two statuses
    other than 401, 402 and 429 for which [handle_response_error] raises the
    same detail are the same status. *)
Theorem passthrough_message_determines_status s1 s2 d :
  s1 <> 401 -> s1 <> 402 -> s1 <> 429 ->
  s2 <> 401 -> s2 <> 402 -> s2 <> 429 ->
  handle_response_error s1 = Raise (HTTPException s1 d) ->
  handle_response_error s2 = Raise (HTTPException s2 d) ->
  s1 = s2.
Proof.
  intros A1 A2 A3 B1 B2 B3.
  rewrite !handle_response_error_table. unfold table_message.
  apply Z.eqb_neq in A1, A2, A3, B1, B2, B3.
  rewrite A1, A2, A3, B1, B2, B3. cbn [orb].
  intros H1 H2. inversion H1 as [E1]. inversion H2 as [E2].
  rewrite <- E1 in E2. unfold message_detail in E2. inversion E2 as [E].
  symmetry. exact (str_of_int_inj _ _ E).
Qed.

Lemma passthrough_message_determines_status_witness :
  handle_response_error 500 =
    Raise (HTTPException 500 (message_detail (lit "OpenAI API error: 500"))) /\
  500 = 500.
Proof.
  split; [reflexivity |].
  apply (passthrough_message_determines_status 500 500
           (message_detail (lit "OpenAI API error: 500")));
    first [discriminate | reflexivity].
Defined.

(** ** Extraction *)

(** X4. [extract_response_content] returns exactly on the bodies of the
    expected shape: it returns [s] if and only if the body is an object whose
    [choices] is a list starting with an object, whose [message] is an object
    whose [content] is a string, and [s] is that string stripped. *)
Theorem extract_returns_iff_well_formed j s :
  extract_response_content j = Return s <->
  exists content, well_formed_body j content /\ s = strip content.
Proof.
  split.
  - apply extract_returns_well_formed.
  - intros (content & Hwf & ->). apply extract_well_formed, Hwf.
Qed.

(** X7. A missing key at any level of the expected shape, or a [choices]
    that is an object instead of a list, makes [extract_response_content]
    raise [HTTPException 500] with message "Unexpected response format". *)
Theorem missing_key_is_unexpected_format d :
  dict_get d (lit "choices") = None \/
  (exists cs, dict_get d (lit "choices") = Some (JDict cs)) \/
  (exists cd rest,
     dict_get d (lit "choices") = Some (JList (JDict cd :: rest)) /\
     (dict_get cd (lit "message") = None \/
      exists md, dict_get cd (lit "message") = Some (JDict md) /\
                 dict_get md (lit "content") = None)) ->
  extract_response_content (JDict d) =
    Raise (HTTPException 500 (message_detail (lit "Unexpected response format"))).
Proof.
  unfold extract_response_content. cbn [getitem].
  intros [H | [(cs & H) | (cd & rest & H & [Hm | (md & Hm & Hc)])]];
    rewrite H; cbn [rbind getitem]; try reflexivity;
    rewrite seq_index_0; cbn [hd_error rbind getitem]; rewrite Hm;
    cbn [rbind getitem]; try reflexivity.
  rewrite Hc. reflexivity.
Qed.

Lemma missing_key_is_unexpected_format_witness :
  extract_response_content
    (JDict [(lit "choices", JList [JDict [(lit "text", JStr (lit "hi"))]])]) =
  Raise (HTTPException 500 (message_detail (lit "Unexpected response format"))).
Proof.
  apply (missing_key_is_unexpected_format
           [(lit "choices", JList [JDict [(lit "text", JStr (lit "hi"))]])]).
  right. right. exists [(lit "text", JStr (lit "hi"))], [].
  split; [reflexivity | left; reflexivity].
Defined.

(** X8. When the body has the expected shape except that [content] is not a
    string ([null], a number, a list, an object), [extract_response_content]
    raises an [AttributeError]; it is not reported as "Unexpected response
    format". *)
Theorem non_string_content_is_attribute_error d rest cd md v :
  dict_get d (lit "choices") = Some (JList (JDict cd :: rest)) ->
  dict_get cd (lit "message") = Some (JDict md) ->
  dict_get md (lit "content") = Some v ->
  (forall s, v <> JStr s) ->
  extract_response_content (JDict d) = Raise AttributeError.
Proof.
  intros H1 H2 H3 Hv.
  unfold extract_response_content. cbn [getitem]. rewrite H1.
  cbn [rbind getitem]. rewrite seq_index_0. cbn [hd_error rbind getitem].
  rewrite H2. cbn [rbind getitem]. rewrite H3. cbn [rbind].
  destruct v; try reflexivity. destruct (Hv s eq_refl).
Qed.

Lemma non_string_content_is_attribute_error_witness :
  extract_response_content
    (JDict [(lit "choices",
             JList [JDict [(lit "message",
                            JDict [(lit "content", JNull)])]])]) =
  Raise AttributeError.
Proof.
  apply (non_string_content_is_attribute_error
           [(lit "choices",
             JList [JDict [(lit "message", JDict [(lit "content", JNull)])]])]
           [] [(lit "message", JDict [(lit "content", JNull)])]
           [(lit "content", JNull)] JNull eq_refl eq_refl eq_refl).
  intros s. discriminate.
Defined.

(** X9. A body that is valid JSON but not an object (a list, a string, a
    number, a boolean, [null]) makes [extract_response_content] raise a
    [TypeError]; it is not reported as "Unexpected response format". *)
Theorem non_object_body_is_type_error j :
  (forall d, j <> JDict d) ->
  extract_response_content j = Raise TypeError.
Proof.
  intros Hj. destruct j; try reflexivity. destruct (Hj d eq_refl).
Qed.

Lemma non_object_body_is_type_error_witness :
  extract_response_content (JList [JStr (lit "choices")]) = Raise TypeError.
Proof.
  apply (non_object_body_is_type_error (JList [JStr (lit "choices")])).
  intros d. discriminate.
Defined.

(** X6. A well-formed body whose content consists of whitespace only (the
    empty string included) is accepted: extraction returns the empty
    string. *)
Theorem whitespace_only_content_gives_empty_answer j content :
  well_formed_body j content ->
  forallb isspace content = true ->
  extract_response_content j = Return [].
Proof.
  intros Hwf Hws. rewrite (extract_well_formed _ _ Hwf).
  unfold strip. rewrite (lstrip_all_space _ Hws). reflexivity.
Qed.

Lemma whitespace_only_content_gives_empty_answer_witness :
  let j := JDict [(lit "choices",
                   JList [JDict [(lit "message",
                                  JDict [(lit "content", JStr [32; 10; 9]%N)])]])] in
  forallb isspace [32; 10; 9]%N = true /\
  extract_response_content j = Return [].
Proof.
  cbv zeta. split; [reflexivity |].
  apply (whitespace_only_content_gives_empty_answer _ [32; 10; 9]%N);
    [| reflexivity].
  eexists _, _, _, _. repeat split.
Defined.

(** ** The route as a whole *)

(** X13. The caller receives the success body only when a credential was
    resolved and upstream answered the call with a 2xx status and a body of
    the expected shape; the answer is then the stripped content. *)
Theorem success_only_from_well_formed_2xx D exc_str client request x a :
  fst (post_ask D exc_str client request x) = success_response a ->
  exists key resp j content,
    validate_api_key D x = Return key /\
    client 60%Q (the_call key (question request)) = Return resp /\
    is_success resp = true /\
    json_body resp = Some j /\
    well_formed_body j content /\
    a = strip content.
Proof.
  destruct (validate_api_key_cases D x) as [(key & Hk & _) | Hno].
  - rewrite (post_ask_key _ _ _ _ _ _ Hk). cbn [fst].
    destruct (after_post _) as [s | e] eqn:E.
    + intros H. apply fastapi_response_success in H.
      destruct H as [-> _]. cbn [response_field].
      apply after_post_returns in E.
      destruct E as (resp & j & Hup & Hs & Hj & Hx).
      apply extract_returns_well_formed in Hx.
      destruct Hx as (content & Hwf & ->).
      exists key, resp, j, content. auto 10.
    + destruct (fastapi_response_rewrap exc_str e) as (s & m & -> & _).
      discriminate.
  - rewrite (post_ask_no_key _ _ _ _ _ _ Hno). discriminate.
Qed.

Lemma success_only_from_well_formed_2xx_witness :
  let j := JDict [(lit "choices",
                   JList [JDict [(lit "message",
                                  JDict [(lit "content", JStr (lit " ok "))])]])] in
  exists key resp j' content,
    validate_api_key None (Some (lit "sk-test")) = Return key /\
    stub_response (mk_response 201 (Some j)) 60%Q
      (the_call key (lit "hi")) = Return resp /\
    is_success resp = true /\
    json_body resp = Some j' /\
    well_formed_body j' content /\
    lit "ok" = strip content.
Proof.
  cbv zeta.
  exact (success_only_from_well_formed_2xx None example_exc_str
           (stub_response
              (mk_response 201
                 (Some (JDict [(lit "choices",
                     JList [JDict [(lit "message",
                        JDict [(lit "content", JStr (lit " ok "))])]])]))))
           (mk_QuestionRequest (lit "hi")) (Some (lit "sk-test")) (lit "ok")
           eq_refl).
Defined.

(** X5. An answer sent with the success body never starts or ends with
    whitespace. *)
Theorem answer_is_trimmed D exc_str client request x a :
  fst (post_ask D exc_str client request x) = success_response a ->
  starts_with_space a = false /\ ends_with_space a = false.
Proof.
  destruct (validate_api_key_cases D x) as [(key & Hk & _) | Hno].
  - rewrite (post_ask_key _ _ _ _ _ _ Hk). cbn [fst].
    destruct (after_post _) as [s | e] eqn:E.
    + intros H. apply fastapi_response_success in H.
      destruct H as [-> _]. cbn [response_field].
      apply after_post_returns in E. destruct E as (_ & j & _ & _ & _ & Hx).
      apply extract_returns_well_formed in Hx.
      destruct Hx as (content & _ & ->).
      destruct (strip_trimmed content) as (_ & _ & _ & _ & _ & Hl & Hr).
      auto.
    + destruct (fastapi_response_rewrap exc_str e) as (s & m & -> & _).
      discriminate.
  - rewrite (post_ask_no_key _ _ _ _ _ _ Hno). discriminate.
Qed.

Lemma answer_is_trimmed_witness :
  starts_with_space (lit "ok") = false /\ ends_with_space (lit "ok") = false.
Proof.
  exact (answer_is_trimmed None example_exc_str
           (stub_response
              (mk_response 200
                 (Some (JDict [(lit "choices",
                     JList [JDict [(lit "message",
                        JDict [(lit "content", JStr (lit " ok "))])]])]))))
           (mk_QuestionRequest (lit "hi")) (Some (lit "sk-test")) (lit "ok")
           eq_refl).
Defined.

(** X12. When [client.post] raises an exception that is not an httpx
    [RequestError] (so neither a timeout), the caller receives status 500
    with message "Internal server error: " followed by [str] of that
    exception, after the one outbound call. *)
Theorem unclassified_exception_is_internal_error
    D exc_str client request x key e :
  validate_api_key D x = Return key ->
  client 60%Q (the_call key (question request)) = Raise e ->
  isinstance e cls_RequestError = false ->
  post_ask D exc_str client request x =
    (error_response 500 (lit "Internal server error: " ++ exc_str e),
     [the_call key (question request)]).
Proof.
  intros Hk Hup Hne.
  rewrite (post_ask_key _ _ _ _ _ _ Hk), Hup. cbn [after_post rbind].
  unfold rewrap. rewrite Hne.
  destruct (isinstance e cls_TimeoutException) eqn:Ht; [| reflexivity].
  destruct e; cbn in Ht, Hne; try discriminate.
  rewrite (timeout_is_request_error _ Ht) in Hne. discriminate.
Qed.

Lemma unclassified_exception_is_internal_error_witness :
  isinstance (HttpxError InvalidURL) cls_RequestError = false /\
  fst (post_ask None example_exc_str (stub_raise (HttpxError InvalidURL))
         (mk_QuestionRequest (lit "hi")) (Some (lit "sk-test"))) =
    error_response 500 (lit "Internal server error: httpx").
Proof.
  split; [reflexivity |].
  rewrite (unclassified_exception_is_internal_error None example_exc_str
             (stub_raise (HttpxError InvalidURL))
             (mk_QuestionRequest (lit "hi")) (Some (lit "sk-test"))
             (lit "sk-test") (HttpxError InvalidURL) eq_refl eq_refl eq_refl).
  reflexivity.
Defined.

Lemma extract_returns_iff_well_formed_witness :
  extract_response_content
    (JDict [(lit "choices",
             JList [JDict [(lit "message",
                            JDict [(lit "content", JStr (lit " ok "))])]])]) =
  Return (lit "ok").
Proof.
  apply (proj2 (extract_returns_iff_well_formed _ (lit "ok"))).
  exists (lit " ok "). split; [| reflexivity].
  eexists _, _, _, _. repeat split.
Defined.

Lemma unauthorized_iff_no_call_witness :
  status (fst (post_ask None example_exc_str
                 (stub_response (mk_response 401 None))
                 (mk_QuestionRequest (lit "hi")) (Some (lit "sk-bad")))) <> 401.
Proof.
  intros H.
  apply (proj1 (unauthorized_iff_no_call None example_exc_str
                  (stub_response (mk_response 401 None))
                  (mk_QuestionRequest (lit "hi")) (Some (lit "sk-bad")))) in H.
  discriminate H.
Defined.
